(** * Verification of [scripts/python/extract_test_elements.py]

    The script parses an HTML document with BeautifulSoup's [html.parser]
    tree builder, walks the tree for elements whose [data-test-id] value
    starts with [e2e-], builds one dictionary per such element and prints
    the list of dictionaries with [json.dumps(..., indent=2)].

    The development embeds the script function by function:
    - [PyStr]: the [str] operations the script relies on ([strip],
      [startswith], truthiness);
    - [Bs4]: the parsed tree and the BeautifulSoup calls made on it
      ([find_all], [find], [get], [__getitem__], [get_text]);
    - [Json]: [json.dumps] with [indent=2] on a list of string dictionaries;
    - [Extractor]: [extract_test_elements];
    - [Cli]: the [__main__] block;
    - [Samples]: the documents of the scenarios, as parsed trees;
    - [Spec]: the notions the properties are stated with.

    BeautifulSoup's parser itself is an external library: it is a parameter
    of the development. *)

From Stdlib Require Import Strings.String Strings.Ascii.
From stdpp Require Import base option list gmap.

Set Warnings "-clear-no-such-hyp,-register-all".

Local Open Scope string_scope.
Local Open Scope list_scope.
Local Open Scope N_scope.

(** ** Python strings *)

Module PyStr.

(** A Python [str] is a sequence of Unicode code points. *)
Abbreviation pystr := (list N).

(** [py "abc"] is the [str] literal with those (ASCII) characters. *)
Definition py (s : string) : pystr := N_of_ascii <$> list_ascii_of_string s.
#[global] Arguments py : simpl never.

(** [bool(s)] for a [str]: the empty string is falsy. *)
Definition truthy (s : pystr) : bool :=
  match s with [] => false | _ :: _ => true end.

(** [bool(x)] where [x] is [None] or a [str], as returned by [dict.get]. *)
Definition truthy_opt (x : option pystr) : bool :=
  match x with None => false | Some s => truthy s end.

(** [str.isspace] on one code point: the characters [str.strip()] removes
    when called without argument. *)
Definition is_space (c : N) : bool :=
  ((9 <=? c) && (c <=? 13)) || ((28 <=? c) && (c <=? 32))
  || (c =? 133) || (c =? 160) || (c =? 5760)
  || ((8192 <=? c) && (c <=? 8202))
  || (c =? 8232) || (c =? 8233) || (c =? 8239) || (c =? 8287) || (c =? 12288).

(** [s.lstrip()] *)
Fixpoint lstrip (s : pystr) : pystr :=
  match s with
  | [] => []
  | c :: s' => if is_space c then lstrip s' else s
  end.

(** [s.rstrip()] *)
Fixpoint rstrip (s : pystr) : pystr :=
  match s with
  | [] => []
  | c :: s' =>
      match rstrip s' with
      | [] => if is_space c then [] else [c]
      | r => c :: r
      end
  end.

(** [s.strip()] *)
Definition strip (s : pystr) : pystr := rstrip (lstrip s).

(** [s.startswith(prefix)] *)
Fixpoint startswith (s prefix : pystr) {struct prefix} : bool :=
  match prefix, s with
  | [], _ => true
  | _ :: _, [] => false
  | p :: prefix', c :: s' => (c =? p) && startswith s' prefix'
  end.

(** [str.join] on the empty separator. *)
Definition join_empty (parts : list pystr) : pystr := concat parts.

(** [sep.join(parts)] *)
Fixpoint join (sep : pystr) (parts : list pystr) : pystr :=
  match parts with
  | [] => []
  | [p] => p
  | p :: rest => p ++ sep ++ join sep rest
  end.

End PyStr.
Import PyStr.

(** ** Exceptions *)

Inductive exn : Type :=
| KeyError (key : pystr)
| ParserRejectedMarkup
| IsADirectoryError
| FileNotFoundError
| PermissionError
| UnicodeDecodeError.

Inductive result (A : Type) : Type :=
| Ok (a : A)
| Raise (e : exn).
Arguments Ok {A} a.
Arguments Raise {A} e.

#[global] Instance result_ret : MRet result := λ A a, Ok a.
#[global] Instance result_bind : MBind result := λ A B k r,
  match r with Ok a => k a | Raise e => Raise e end.

(** ** The parsed tree and the BeautifulSoup calls of the script *)

Module Bs4.

(** The classes of the string nodes of a parsed tree: [NavigableString]
    and its subclasses.  The tree builder chooses the class of each string
    (the text of a [<script>] is a [Script], of a [<style>] a
    [Stylesheet], and so on). *)
Inductive string_class : Type :=
| ClsNavigableString | ClsCData | ClsComment | ClsDeclaration
| ClsDoctype | ClsProcessingInstruction
| ClsScript | ClsStylesheet | ClsTemplateString
| ClsRubyTextString | ClsRubyParenthesisString.

#[global] Instance string_class_eq_dec : EqDecision string_class.
Proof. solve_decision. Defined.

(** A node of the tree: a [Tag] with its name, its attribute dictionary
    and its [contents], or a string node.  The attributes the script reads
    ([data-test-id], [type], [aria-label], [placeholder], [id], and [for]
    on a [label]) are single-valued for [html.parser], so that their values
    are [str]; the [BeautifulSoup] object is itself a [Tag]. *)
Inductive PageElement : Type :=
| Tag (name : pystr) (attrs : gmap pystr pystr) (contents : list PageElement)
| NavigableString (cls : string_class) (s : pystr).

Definition is_tag (e : PageElement) : bool :=
  match e with Tag _ _ _ => true | NavigableString _ _ => false end.

(** [element.name] *)
Definition name (e : PageElement) : pystr :=
  match e with Tag n _ _ => n | NavigableString _ _ => [] end.

(** [element.attrs] *)
Definition attrs (e : PageElement) : gmap pystr pystr :=
  match e with Tag _ a _ => a | NavigableString _ _ => ∅ end.

(** [element.contents] *)
Definition contents (e : PageElement) : list PageElement :=
  match e with Tag _ _ c => c | NavigableString _ _ => [] end.

(** [element.get(key)]: [attrs.get(key)], [None] when absent. *)
Definition get (e : PageElement) (key : pystr) : option pystr :=
  attrs e !! key.

(** [element[key]]: [attrs[key]], which raises [KeyError] when absent. *)
Definition getitem (e : PageElement) (key : pystr) : result pystr :=
  match attrs e !! key with
  | Some v => Ok v
  | None => Raise (KeyError key)
  end.

(** [element.descendants]: every node below [e], in document order
    (a node, then its descendants, then its next sibling). *)
Fixpoint descendants (e : PageElement) : list PageElement :=
  match e with
  | Tag _ _ cs =>
      (fix go (l : list PageElement) : list PageElement :=
         match l with
         | [] => []
         | c :: l' => c :: descendants c ++ go l'
         end) cs
  | NavigableString _ _ => []
  end.

(** [SoupStrainer._matches(markup, match_against)] for an attribute value
    [markup] ([None] when the attribute is absent) and a [str] to match:
    an absent attribute matches only a falsy [match_against], a present one
    must be equal to it. *)
Definition matches (markup : option pystr) (match_against : pystr) : bool :=
  match markup with
  | None => negb (truthy match_against)
  | Some v => bool_decide (v = match_against)
  end.

(** [soup.find_all(attrs={key: True})]: the tags below [soup] that have the
    attribute, whatever its value, in document order. *)
Definition find_all_attr_present (soup : PageElement) (key : pystr)
  : list PageElement :=
  filter (λ e, is_tag e = true ∧ is_Some (get e key)) (descendants soup).

(** [soup.find(tag_name, attrs={key: value})]: the first tag below [soup]
    with that name whose attribute matches, [None] when there is none. *)
Definition find (soup : PageElement) (tag_name key value : pystr)
  : option PageElement :=
  head (filter (λ e, is_tag e = true ∧ name e = tag_name
                     ∧ matches (get e key) value = true)
               (descendants soup)).

(** [element.interesting_string_types], which the tree builder sets from
    the name of the tag: the string classes [get_text] keeps. *)
Definition interesting_string_types (tag_name : pystr) : list string_class :=
  if decide (tag_name = py "rt") then [ClsRubyTextString]
  else if decide (tag_name = py "rp") then [ClsRubyParenthesisString]
  else if decide (tag_name = py "style") then [ClsStylesheet]
  else if decide (tag_name = py "script") then [ClsScript]
  else if decide (tag_name = py "template") then [ClsTemplateString]
  else [ClsNavigableString; ClsCData].

(** The tests of [_all_strings] on a descendant [d]: a string node whose
    class is one of [types]. *)
Definition is_string_of (types : list string_class) (d : PageElement) : bool :=
  match d with
  | NavigableString cls _ => bool_decide (cls ∈ types)
  | Tag _ _ _ => false
  end.

Definition string_of (d : PageElement) : pystr :=
  match d with NavigableString _ s => s | Tag _ _ _ => [] end.

(** The strings [element._all_strings()] yields, in document order. *)
Definition all_strings (e : PageElement) : list pystr :=
  string_of
    <$> filter (λ d, is_string_of (interesting_string_types (name e)) d = true)
               (descendants e).

(** The strings [element._all_strings(strip=True)] yields: each string
    stripped, the ones that are empty once stripped left out. *)
Definition all_strings_strip (e : PageElement) : list pystr :=
  filter (λ s, truthy s = true) (strip <$> all_strings e).

(** [element.get_text(strip=True)] *)
Definition get_text_strip (e : PageElement) : pystr :=
  join_empty (all_strings_strip e).


End Bs4.
Import Bs4.

(** ** Dictionaries in insertion order *)

Module Dict.

(** A [dict] with [str] keys and values, as the list of its items in
    insertion order (the order [json.dumps] writes them in). *)
Abbreviation dict := (list (pystr * pystr)).

(** [d.get(key)] *)
Fixpoint dict_get (d : dict) (key : pystr) : option pystr :=
  match d with
  | [] => None
  | (k, v) :: d' => if decide (k = key) then Some v else dict_get d' key
  end.

(** [d[key] = value]: a key already there keeps its place, a new key goes
    last. *)
Fixpoint dict_set (d : dict) (key value : pystr) : dict :=
  match d with
  | [] => [(key, value)]
  | (k, v) :: d' =>
      if decide (k = key) then (k, value) :: d' else (k, v) :: dict_set d' key value
  end.

(** [list(d.keys())] *)
Definition keys (d : dict) : list pystr := fst <$> d.

End Dict.
Import Dict.

(** ** [json.dumps(obj, indent=2)] *)

Module Json.

(** One lower-case hexadecimal digit, as a character. *)
Definition hex_digit (n : N) : N := if n <? 10 then 48 + n else 87 + n.

(** ['{0:04x}'.format(n)] for [n < 0x10000]. *)
Definition hex4 (n : N) : pystr :=
  [ hex_digit (N.land (N.shiftr n 12) 15); hex_digit (N.land (N.shiftr n 8) 15);
    hex_digit (N.land (N.shiftr n 4) 15); hex_digit (N.land n 15) ].

(** The replacement of one character in [encode_basestring_ascii]:
    backslash, double quote and the characters outside [' '..'~'] are
    escaped, those above [0xFFFF] as a surrogate pair. *)
Definition escape_char (c : N) : pystr :=
  if c =? 92 then [92; 92]
  else if c =? 34 then [92; 34]
  else if c =? 8 then [92; 98]
  else if c =? 12 then [92; 102]
  else if c =? 10 then [92; 110]
  else if c =? 13 then [92; 114]
  else if c =? 9 then [92; 116]
  else if (32 <=? c) && (c <=? 126) then [c]
  else if c <? 65536 then [92; 117] ++ hex4 c
  else
    let n := c - 65536 in
    let s1 := N.lor 55296 (N.land (N.shiftr n 10) 1023) in
    let s2 := N.lor 56320 (N.land n 1023) in
    [92; 117] ++ hex4 s1 ++ [92; 117] ++ hex4 s2.

(** [encode_basestring_ascii(s)] *)
Definition encode_str (s : pystr) : pystr :=
  [34] ++ concat (escape_char <$> s) ++ [34].

(** ['\n' + ' ' * (2 * level)] *)
Definition newline_indent (level : nat) : pystr := 10 :: replicate (2 * level) 32.

(** One item of an object: the key, [': '], the value. *)
Definition encode_item (kv : pystr * pystr) : pystr :=
  encode_str kv.1 ++ py ": " ++ encode_str kv.2.

(** [_iterencode_dict] at nesting depth [level]. *)
Definition encode_dict (level : nat) (d : dict) : pystr :=
  match d with
  | [] => py "{}"
  | _ :: _ =>
      [123] ++ newline_indent (S level)
      ++ join ([44] ++ newline_indent (S level)) (encode_item <$> d)
      ++ newline_indent level ++ [125]
  end.

(** [_iterencode_list] at nesting depth [level]. *)
Definition encode_list (level : nat) (l : list dict) : pystr :=
  match l with
  | [] => py "[]"
  | _ :: _ =>
      [91] ++ newline_indent (S level)
      ++ join ([44] ++ newline_indent (S level)) (encode_dict (S level) <$> l)
      ++ newline_indent level ++ [93]
  end.

(** [json.dumps(test_elements, indent=2)] *)
Definition dumps (test_elements : list dict) : pystr := encode_list 0 test_elements.

End Json.
Import Json.

(** ** [extract_test_elements] *)

Module Extractor.

(** [if value: element_info[key] = value], for a [value] that is [None]
    or a [str]. *)
Definition set_if_truthy (element_info : dict) (key : pystr)
    (value : option pystr) : dict :=
  match value with
  | Some v => if truthy v then dict_set element_info key v else element_info
  | None => element_info
  end.

(** The body of the [if test_id and test_id.startswith("e2e-")] branch, up
    to the [append]: the dictionary built for [element]. *)
Definition build_element_info (soup element : PageElement) (test_id : pystr)
  : result dict :=
  let element_info := [(py "test_id", test_id)] in
  let tag := name element in
  let element_info := set_if_truthy element_info (py "tag") (Some tag) in
  let element_type := get element (py "type") in
  let element_info := set_if_truthy element_info (py "type") element_type in
  let text := get_text_strip element in
  let element_info := set_if_truthy element_info (py "text") (Some text) in
  let aria_label := get element (py "aria-label") in
  let element_info := set_if_truthy element_info (py "aria_label") aria_label in
  let placeholder := get element (py "placeholder") in
  let element_info := set_if_truthy element_info (py "placeholder") placeholder in
  if truthy_opt (get element (py "id")) then
    id ← getitem element (py "id");
    let label := find soup (py "label") (py "for") id in
    match label with
    | Some label =>
        let label_text := get_text_strip label in
        Ok (set_if_truthy element_info (py "label") (Some label_text))
    | None => Ok element_info
    end
  else Ok element_info.

(** The body of the [for] loop: [test_elements] after visiting [element].
    [test_id and test_id.startswith("e2e-")] is falsy when [test_id] is
    [None] or empty. *)
Definition visit (soup : PageElement) (test_elements : list dict)
    (element : PageElement) : result (list dict) :=
  match get element (py "data-test-id") with
  | Some test_id =>
      if truthy test_id && startswith test_id (py "e2e-") then
        element_info ← build_element_info soup element test_id;
        Ok (test_elements ++ [element_info])
      else Ok test_elements
  | None => Ok test_elements
  end.

(** [for x in xs: s = body(s, x)], stopping at the first exception. *)
Fixpoint for_each {S A} (body : S -> A -> result S) (xs : list A) (s : S)
  : result S :=
  match xs with
  | [] => Ok s
  | x :: xs' => s' ← body s x; for_each body xs' s'
  end.

(** The function after the parse: the loop over
    [soup.find_all(attrs={"data-test-id": True})], from
    [test_elements = []]. *)
Definition collect (soup : PageElement) : result (list dict) :=
  for_each (visit soup) (find_all_attr_present soup (py "data-test-id")) [].

(** [extract_test_elements(html_content)]; [BeautifulSoup] stands for
    [BeautifulSoup(_, "html.parser")]. *)
Definition extract_test_elements (BeautifulSoup : pystr -> result PageElement)
    (html_content : pystr) : result pystr :=
  soup ← BeautifulSoup html_content;
  test_elements ← collect soup;
  Ok (dumps test_elements).

End Extractor.
Import Extractor.

(** ** The [__main__] block *)

Module Cli.

(** What the script asks of the operating system: [os.path.exists] and
    reading a whole file opened with [encoding="utf-8"]. *)
Record os : Type := {
  path_exists : pystr -> bool;
  read_text : pystr -> result pystr
}.

(** How the process ends: [sys.exit(status)], the end of the script
    (status 0), or an exception nobody catches (the interpreter prints the
    traceback on standard error and the status is 1). *)
Inductive termination : Type :=
| Exit (status : Z)
| Uncaught (e : exn).

Definition exit_status (t : termination) : Z :=
  match t with Exit n => n | Uncaught _ => 1%Z end.

(** [print(s)]: [s] and a newline, appended to standard output. *)
Definition print (stdout s : pystr) : pystr := stdout ++ s ++ [10].

(** The two messages of the script. *)
Definition usage_message : pystr :=
  py "Usage: python extract_test_elements.py <path_to_html_file>".

Definition missing_file_message (file_path : pystr) : pystr :=
  py "Error: File '" ++ file_path ++ py "' does not exist.".

(** The [__main__] block run with [sys.argv = argv]: what standard output
    holds at the end, and how the process ends. *)
Definition main (sys : os) (BeautifulSoup : pystr -> result PageElement)
    (argv : list pystr) : pystr * termination :=
  let stdout := [] in
  if (length argv <? 2)%nat then (print stdout usage_message, Exit 1)
  else
    let file_path := default [] (argv !! 1%nat) in
    if negb (path_exists sys file_path) then
      (print stdout (missing_file_message file_path), Exit 1)
    else
      match read_text sys file_path with
      | Raise e => (stdout, Uncaught e)
      | Ok html_content =>
          match extract_test_elements BeautifulSoup html_content with
          | Raise e => (stdout, Uncaught e)
          | Ok out => (print stdout out, Exit 0)
          end
      end.

End Cli.
Import Cli.

(** ** Sample documents *)

Module Samples.

(** A text node. *)
Definition text (s : string) : PageElement :=
  NavigableString ClsNavigableString (py s).

(** An element, from its name, attribute list and children. *)
Definition elem (n : string) (a : list (string * string))
    (cs : list PageElement) : PageElement :=
  Tag (py n) (list_to_map ((λ kv, (py kv.1, py kv.2)) <$> a)) cs.

(** The [BeautifulSoup] object over the top-level nodes [cs]. *)
Definition document (cs : list PageElement) : PageElement :=
  Tag (py "[document]") ∅ cs.

(** [<button data-test-id="e2e-submit" type="submit">Send</button>] *)
Definition doc_button : PageElement :=
  document [elem "button" [("data-test-id", "e2e-submit"); ("type", "submit")]
                 [text "Send"]].

(** [<input data-test-id="e2e-email" id="email" placeholder="you@x.com"/>
     <label for="email">Email</label>] *)
Definition input_email : PageElement :=
  elem "input" [("data-test-id", "e2e-email"); ("id", "email");
                ("placeholder", "you@x.com")] [].

Definition doc_email : PageElement :=
  document [input_email; elem "label" [("for", "email")] [text "Email"]].

(** [<input data-test-id='e2e-name' id=''/><label for=''>Name</label>] *)
Definition input_empty_id : PageElement :=
  elem "input" [("data-test-id", "e2e-name"); ("id", EmptyString)] [].

Definition doc_empty_id : PageElement :=
  document [input_empty_id; elem "label" [("for", EmptyString)] [text "Name"]].

(** [<div data-test-id="e2e-dup"><span data-test-id="e2e-dup">a</span></div>
     <p data-test-id="unit-foo">hi</p><p data-test-id="e2e-dup">b</p>] *)
Definition doc_dup : PageElement :=
  document [elem "div" [("data-test-id", "e2e-dup")]
                 [elem "span" [("data-test-id", "e2e-dup")] [text "a"]];
            elem "p" [("data-test-id", "unit-foo")] [text "hi"];
            elem "p" [("data-test-id", "e2e-dup")] [text "b"]].

(** [<span data-test-id="unit-foo">hi</span><div aria-label="close"></div>] *)
Definition doc_none : PageElement :=
  document [elem "span" [("data-test-id", "unit-foo")] [text "hi"];
            elem "div" [("aria-label", "close")] []].

(** The sources of [doc_button] and [doc_none], and a parser that knows
    them; it returns the empty document on anything else. *)
Definition html_button : pystr :=
  py "<button data-test-id='e2e-submit' type='submit'>Send</button>".

Definition html_none : pystr :=
  py "<span data-test-id='unit-foo'>hi</span><div aria-label='close'></div>".

Definition parse_samples (html_content : pystr) : result PageElement :=
  if decide (html_content = html_button) then Ok doc_button
  else if decide (html_content = html_none) then Ok doc_none
  else Ok (document []).

(** [<div data-test-id="e2e-card"> <script>init()</script><b> Hello </b>
     <!-- note --> world </div>], as [html.parser] builds it. *)
Definition doc_mixed : PageElement :=
  document [elem "div" [("data-test-id", "e2e-card")]
                 [text " ";
                  elem "script" [] [NavigableString ClsScript (py "init()")];
                  elem "b" [] [text " Hello "];
                  text " ";
                  NavigableString ClsComment (py " note ");
                  text " world "]].

(** A JSON string literal with nothing to escape. *)
Definition quoted (s : string) : pystr := [34] ++ py s ++ [34].

(** A file system where [/tmp] is a directory and [/srv/page.html] holds
    [html_button]; nothing else exists. *)
Definition sample_os : os := {|
  path_exists p :=
    bool_decide (p = py "/tmp") || bool_decide (p = py "/srv/page.html");
  read_text p :=
    if decide (p = py "/tmp") then Raise IsADirectoryError
    else if decide (p = py "/srv/page.html") then Ok html_button
    else Raise FileNotFoundError
|}.

End Samples.
Import Samples.

(** ** The vocabulary of the properties *)

Module Spec.

(** The elements of the parsed document, in document order. *)
Definition elements (soup : PageElement) : list PageElement :=
  filter (λ e, is_tag e = true) (descendants soup).

(** The element carries the [data-test-id] attribute with a value
    beginning with [e2e-]. *)
Definition carries_e2e_test_id (e : PageElement) : Prop :=
  ∃ v, get e (py "data-test-id") = Some v ∧ py "e2e-" `prefix_of` v.

#[global] Instance carries_e2e_test_id_dec e : Decision (carries_e2e_test_id e).
Proof.
  unfold carries_e2e_test_id.
  destruct (get e (py "data-test-id")) as [v|].
  - destruct (decide (py "e2e-" `prefix_of` v)) as [H|H].
    + left. eauto.
    + right. intros (w & [= <-] & Hw). done.
  - right. intros (w & [=] & _).
Defined.

(** The qualifying elements, in document order. *)
Definition qualifying (soup : PageElement) : list PageElement :=
  filter carries_e2e_test_id (elements soup).

(** [r] is the record the loop appends when it visits [element]. *)
Definition produced (soup : PageElement) (element : PageElement) (r : dict)
  : Prop :=
  ∃ test_id, get element (py "data-test-id") = Some test_id
             ∧ build_element_info soup element test_id = Ok r.

(** The optional fields of a record. *)
Inductive field : Type := FType | FText | FAriaLabel | FPlaceholder | FLabel.

Definition field_key (f : field) : pystr :=
  match f with
  | FType => py "type"
  | FText => py "text"
  | FAriaLabel => py "aria_label"
  | FPlaceholder => py "placeholder"
  | FLabel => py "label"
  end.

(** The value the script tests before it sets the field: the locals
    [element_type], [text], [aria_label], [placeholder] and [label_text]
    ([None] where the script has no value: the attribute is absent, or the
    label lookup is not made or finds nothing). *)
Definition source_value (soup element : PageElement) (f : field)
  : option pystr :=
  match f with
  | FType => get element (py "type")
  | FText => Some (get_text_strip element)
  | FAriaLabel => get element (py "aria-label")
  | FPlaceholder => get element (py "placeholder")
  | FLabel =>
      match get element (py "id") with
      | Some id =>
          if truthy id
          then get_text_strip <$> find soup (py "label") (py "for") id
          else None
      | None => None
      end
  end.

(** The fixed order of the fields. *)
Definition field_order : list pystr :=
  [py "test_id"; py "tag"; py "type"; py "text"; py "aria_label";
   py "placeholder"; py "label"].

(** The first [<label>] of the document, in document order, whose [for]
    attribute is exactly [id]. *)
Definition first_label_for (soup : PageElement) (id : pystr)
  : option PageElement :=
  head (filter (λ e, is_tag e = true ∧ name e = py "label"
                     ∧ get e (py "for") = Some id)
               (descendants soup)).

(** The [label] entry a record should have, from the first matching label:
    its stripped text when that is not empty, no entry otherwise. *)
Definition expected_label (soup : PageElement) (id : pystr) : option pystr :=
  match first_label_for soup id with
  | Some l => if truthy (get_text_strip l) then Some (get_text_strip l) else None
  | None => None
  end.

(** [if value: element_info[key] = value] seen as the items it adds. *)
Definition keep (key : pystr) (value : option pystr) : dict :=
  match value with
  | Some v => if truthy v then [(key, v)] else []
  | None => []
  end.

(** The record of an element, field by field. *)
Definition record_of (soup element : PageElement) (test_id : pystr) : dict :=
  (py "test_id", test_id)
    :: keep (py "tag") (Some (name element))
    ++ keep (py "type") (source_value soup element FType)
    ++ keep (py "text") (source_value soup element FText)
    ++ keep (py "aria_label") (source_value soup element FAriaLabel)
    ++ keep (py "placeholder") (source_value soup element FPlaceholder)
    ++ keep (py "label") (source_value soup element FLabel).

(** The value of [element.get("data-test-id")] for a qualifying element. *)
Definition test_id_of (element : PageElement) : pystr :=
  default [] (get element (py "data-test-id")).

Definition element_record (soup element : PageElement) : dict :=
  record_of soup element (test_id_of element).

(** The label rule as the specification words it: for a qualifying
    element with an [id] attribute, whatever its value, the record has the
    label entry that the first matching [<label>] gives. *)
Definition label_rule_for_any_id (soup element : PageElement) : Prop :=
  carries_e2e_test_id element →
  ∀ id, get element (py "id") = Some id →
    ∃ r, produced soup element r
         ∧ dict_get r (py "label") = expected_label soup id.

(** The third case of the command line as the specification words it:
    whenever an argument is given and the path exists, the extractor's
    output is printed and the status is 0. *)
Definition cli_existing_path_rule (sys : os)
    (BeautifulSoup : pystr → result PageElement) (argv : list pystr) : Prop :=
  ∀ file_path,
    argv !! 1%nat = Some file_path →
    path_exists sys file_path = true →
    ∃ out, main sys BeautifulSoup argv = (print [] out, Exit 0).

(** What one element of the document adds to the output. *)
Definition contribution (soup element : PageElement) : list dict :=
  if decide (carries_e2e_test_id element) then [element_record soup element]
  else [].

End Spec.
Import Spec.

(** ** Further notions *)

Module Further.

(** A string that neither starts nor ends with a white-space character. *)
Definition trimmed (s : pystr) : Prop :=
  ∀ c, head s = Some c ∨ last s = Some c → is_space c = false.

(** A character of the ASCII output of [json.dumps]: a printable
    character or the newline of the indentation. *)
Definition ascii_output_char (c : N) : Prop := c = 10 ∨ (32 ≤ c ∧ c ≤ 126).

(** A record less its [label] entry. *)
Definition without_label (r : dict) : dict :=
  filter (λ kv, kv.1 ≠ py "label") r.

(** [<input data-test-id='e2e-first' id='name'/><label for='name'>Name</label>
     <input data-test-id='e2e-second' id='name' type='text'/>], two
    fields that share an [id]. *)
Definition input_first : PageElement :=
  elem "input" [("data-test-id", "e2e-first"); ("id", "name")] [].

Definition input_second : PageElement :=
  elem "input" [("data-test-id", "e2e-second"); ("id", "name");
                ("type", "text")] [].

Definition doc_shared_id : PageElement :=
  document [input_first; elem "label" [("for", "name")] [text "Name"];
            input_second].

(** The extractor returns a string on every input string. *)
Definition never_raises (BeautifulSoup : pystr → result PageElement) : Prop :=
  ∀ html_content,
    ∃ out, extract_test_elements BeautifulSoup html_content = Ok out.

(** [<![x]>], a marked section with an unknown keyword: [html.parser]
    (Python 3.11) stops on it with an assertion error, which
    [BeautifulSoup] raises as [ParserRejectedMarkup].  The parser below
    does so, and is [parse_samples] on every other input. *)
Definition html_marked_section : pystr := py "<![x]>".

Definition parse_rejecting (html_content : pystr) : result PageElement :=
  if decide (html_content = html_marked_section)
  then Raise ParserRejectedMarkup
  else parse_samples html_content.

End Further.
Import Further.

(** ** The model on the scenarios of the specification *)

Section Scenarios.

Example strip_spaces : strip (py "  a b  ") = py "a b".
Proof. reflexivity. Qed.

Example strip_unicode_spaces : strip ([160; 9] ++ py "x" ++ [8195; 10]) = py "x".
Proof. reflexivity. Qed.

Example scenario_button :
  collect doc_button
  = Ok [[(py "test_id", py "e2e-submit"); (py "tag", py "button");
         (py "type", py "submit"); (py "text", py "Send")]].
Proof. reflexivity. Qed.

Example scenario_email :
  collect doc_email
  = Ok [[(py "test_id", py "e2e-email"); (py "tag", py "input");
         (py "placeholder", py "you@x.com"); (py "label", py "Email")]].
Proof. reflexivity. Qed.

Example scenario_none : collect doc_none = Ok [].
Proof. reflexivity. Qed.

Example scenario_dup :
  collect doc_dup
  = Ok [[(py "test_id", py "e2e-dup"); (py "tag", py "div"); (py "text", py "a")];
        [(py "test_id", py "e2e-dup"); (py "tag", py "span"); (py "text", py "a")];
        [(py "test_id", py "e2e-dup"); (py "tag", py "p"); (py "text", py "b")]].
Proof. reflexivity. Qed.

Example scenario_mixed :
  collect doc_mixed
  = Ok [[(py "test_id", py "e2e-card"); (py "tag", py "div");
         (py "text", py "Helloworld")]].
Proof. reflexivity. Qed.

Example dumps_layout :
  dumps [[(py "a", py "b"); (py "c", py "d")]; [(py "e", py "f")]]
  = join [10]
      [ py "[";
        py "  {";
        py "    " ++ quoted "a" ++ py ": " ++ quoted "b" ++ py ",";
        py "    " ++ quoted "c" ++ py ": " ++ quoted "d";
        py "  },";
        py "  {";
        py "    " ++ quoted "e" ++ py ": " ++ quoted "f";
        py "  }";
        py "]" ].
Proof. reflexivity. Qed.

Example encode_str_escapes :
  encode_str [34; 92; 233; 10; 128512; 127]
  = [34; 92; 34; 92; 92] ++ [92] ++ py "u00e9" ++ [92] ++ py "n"
    ++ [92] ++ py "ud83d" ++ [92] ++ py "ude00" ++ [92] ++ py "u007f" ++ [34].
Proof. reflexivity. Qed.

End Scenarios.

(** ** Strings *)

Section PyStrFacts.

Lemma truthy_true (s : pystr) : truthy s = true ↔ s ≠ [].
Proof. destruct s; naive_solver. Qed.


Lemma startswith_prefix_of (s p : pystr) :
  startswith s p = true ↔ p `prefix_of` s.
Proof.
  revert s. induction p as [|c p IH]; intros s; simpl.
  - split; [intros _; apply prefix_nil | done].
  - destruct s as [|d s]; simpl.
    + split; [done | intros H; by apply prefix_nil_not in H].
    + rewrite andb_true_iff, N.eqb_eq, IH. split.
      * intros [-> H]. by apply prefix_cons.
      * intros H. split; [symmetry; by eapply prefix_cons_inv_1
                         | by eapply prefix_cons_inv_2].
Qed.

(** The guard of the loop, [test_id and test_id.startswith("e2e-")], holds
    exactly for the values that begin with [e2e-]. *)
Lemma guard_prefix (test_id : pystr) :
  truthy test_id && startswith test_id (py "e2e-") = true
  ↔ py "e2e-" `prefix_of` test_id.
Proof.
  rewrite andb_true_iff, startswith_prefix_of. split; [by intros [_ ?]|].
  intros H. split; [|done]. by destruct H as [k ->].
Qed.

End PyStrFacts.

(** ** The record built for one element *)

Section Records.

(** Building a record never raises: [element["id"]] is only evaluated
    when [element.get("id")] is truthy, and no key is set twice. *)
Lemma build_element_info_eq soup element test_id :
  build_element_info soup element test_id = Ok (record_of soup element test_id).
Proof.
  unfold build_element_info, record_of, source_value, getitem, get.
  generalize (get_text_strip element) (name element)
    (attrs element !! py "type") (attrs element !! py "aria-label")
    (attrs element !! py "placeholder").
  intros text tag ty aria ph.
  destruct (attrs element !! py "id") as [id|]; cbn [truthy_opt].
  2:{ destruct tag, ty as [[|??]|], text, aria as [[|??]|], ph as [[|??]|];
      reflexivity. }
  destruct (truthy id) eqn:Hid.
  2:{ destruct tag, ty as [[|??]|], text, aria as [[|??]|], ph as [[|??]|];
      reflexivity. }
  cbn [mbind result_bind].
  destruct (find soup (py "label") (py "for") id) as [label|];
    cbn [fmap option_fmap option_map].
  2:{ destruct tag, ty as [[|??]|], text, aria as [[|??]|], ph as [[|??]|];
      reflexivity. }
  generalize (get_text_strip label). intros lt.
  destruct tag, ty as [[|??]|], text, aria as [[|??]|], ph as [[|??]|], lt;
    reflexivity.
Qed.

Lemma produced_element_record soup element :
  carries_e2e_test_id element →
  produced soup element (element_record soup element).
Proof.
  intros (v & Hv & _). exists v. split; [done|].
  rewrite build_element_info_eq. unfold element_record, test_id_of.
  by rewrite Hv.
Qed.

Lemma produced_inv soup element r :
  produced soup element r →
  ∃ test_id, get element (py "data-test-id") = Some test_id
             ∧ r = record_of soup element test_id.
Proof.
  intros (v & Hv & Hr). rewrite build_element_info_eq in Hr.
  exists v. split; [done | congruence].
Qed.

Lemma produced_functional soup element r1 r2 :
  produced soup element r1 → produced soup element r2 → r1 = r2.
Proof.
  intros (t1 & Ht1 & ->)%produced_inv (t2 & Ht2 & ->)%produced_inv. congruence.
Qed.

End Records.

(** ** The loop *)

Section Loop.

Variable soup : PageElement.

Lemma visit_eq test_elements element :
  visit soup test_elements element
  = Ok (test_elements ++ contribution soup element).
Proof.
  unfold visit, contribution, element_record, test_id_of.
  destruct (decide (carries_e2e_test_id element)) as [(v & Hv & Hp)|Hc].
  - rewrite Hv. apply guard_prefix in Hp as ->.
    rewrite build_element_info_eq. reflexivity.
  - destruct (get element (py "data-test-id")) as [v|] eqn:Hv;
      [|by rewrite app_nil_r].
    destruct (_ && _) eqn:Hg; [|by rewrite app_nil_r].
    apply guard_prefix in Hg. destruct Hc. by exists v.
Qed.

Lemma for_each_visit xs test_elements :
  for_each (visit soup) xs test_elements
  = Ok (test_elements ++ concat (contribution soup <$> xs)).
Proof.
  revert test_elements. induction xs as [|x xs IH]; intros acc; csimpl.
  - by rewrite app_nil_r.
  - rewrite visit_eq. cbn [mbind result_bind]. rewrite IH.
    by rewrite <-(assoc_L (++)).
Qed.

(** An element [find_all] leaves out has no [data-test-id]: it would add
    nothing. *)
Lemma contribution_find_all (l : list PageElement) :
  concat (contribution soup
            <$> filter (λ e, is_tag e = true ∧ is_Some (get e (py "data-test-id"))) l)
  = concat (contribution soup <$> filter (λ e, is_tag e = true) l).
Proof.
  induction l as [|x l IH]; [done|].
  rewrite !filter_cons.
  destruct (decide (is_tag x = true)) as [Ht|Ht].
  - destruct (decide (is_tag x = true ∧ _)) as [Hp|Hp]; csimpl.
    + by rewrite IH.
    + rewrite IH. unfold contribution at 2.
      destruct (decide (carries_e2e_test_id x)) as [(v & Hv & _)|]; [|done].
      destruct Hp. split; [done | by eexists].
  - destruct (decide (is_tag x = true ∧ _)) as [[? _]|Hp]; done.
Qed.

Lemma collect_concat :
  collect soup = Ok (concat (contribution soup <$> elements soup)).
Proof.
  unfold collect, find_all_attr_present, elements.
  by rewrite for_each_visit, contribution_find_all.
Qed.

Lemma concat_contribution (l : list PageElement) :
  concat (contribution soup <$> l)
  = element_record soup <$> filter carries_e2e_test_id l.
Proof.
  induction l as [|x l IH]; [done|].
  rewrite filter_cons. csimpl. unfold contribution at 1.
  destruct (decide (carries_e2e_test_id x)); csimpl; by rewrite IH.
Qed.

Lemma collect_eq :
  collect soup = Ok (element_record soup <$> qualifying soup).
Proof. by rewrite collect_concat, concat_contribution. Qed.

Lemma qualifying_produced :
  Forall2 (produced soup) (qualifying soup)
          (element_record soup <$> qualifying soup).
Proof.
  apply Forall2_fmap_r, Forall_Forall2_diag, Forall_forall.
  intros e He. apply produced_element_record.
  unfold qualifying in He. by apply list_elem_of_filter in He as [? _].
Qed.

End Loop.

(** ** Which elements give a record, and in which order *)

Section Collection.

Lemma filter_none {A} (P : A → Prop) `{!∀ x, Decision (P x)} (l : list A) :
  (∀ x, x ∈ l → ¬ P x) → filter P l = [].
Proof.
  induction l as [|x l IH]; intros Hl; [done|].
  rewrite filter_cons_False by (apply Hl; left).
  apply IH. intros y Hy. apply Hl. by right.
Qed.



Lemma record_of_test_id soup element test_id :
  dict_get (record_of soup element test_id) (py "test_id") = Some test_id.
Proof. unfold record_of. cbn [dict_get]. by rewrite decide_True. Qed.


(** The traversal order, spelled out: the descendants of a tag are, for
    each child in turn, the child followed by its own descendants. *)
Lemma descendants_Tag n a cs :
  descendants (Tag n a cs) = cs ≫= (λ c, c :: descendants c).
Proof. induction cs as [|c cs IH]; [done|]. simpl in *. by rewrite IH. Qed.

End Collection.

(** ** The whole function *)

Section WholeFunction.

Variable BeautifulSoup : pystr → result PageElement.

Lemma extract_test_elements_eq html_content soup :
  BeautifulSoup html_content = Ok soup →
  extract_test_elements BeautifulSoup html_content
  = Ok (dumps (element_record soup <$> qualifying soup)).
Proof.
  intros H. unfold extract_test_elements. rewrite H. cbn [mbind result_bind].
  by rewrite collect_eq.
Qed.

(** C7, amended.  On every input string from which the parser builds a
    tree (truncated or malformed markup that the parser absorbs included),
    the extractor raises nothing: it returns the serialization of the
    records collected from that tree, possibly none.  On an input that
    the parser rejects, the parser's exception leaves the extractor
    unhandled. *)
Theorem no_fault_of_its_own (html_content : pystr) :
  (∀ soup,
     BeautifulSoup html_content = Ok soup →
     ∃ test_elements,
       collect soup = Ok test_elements
       ∧ extract_test_elements BeautifulSoup html_content
         = Ok (dumps test_elements))
  ∧ (∀ e,
       BeautifulSoup html_content = Raise e →
       extract_test_elements BeautifulSoup html_content = Raise e).
Proof.
  split.
  - intros soup Hs. exists (element_record soup <$> qualifying soup).
    split; [apply collect_eq | by apply extract_test_elements_eq].
  - intros e He. unfold extract_test_elements. by rewrite He.
Qed.

(** C10. When no element of the parsed document qualifies, the extractor
    returns the two-character string ["[]"]. *)
Theorem empty_collection html_content soup :
  BeautifulSoup html_content = Ok soup →
  (∀ e, e ∈ elements soup → ¬ carries_e2e_test_id e) →
  extract_test_elements BeautifulSoup html_content = Ok (py "[]")
  ∧ py "[]" = [91; 93].
Proof.
  intros Hs Hno. split; [|done].
  rewrite (extract_test_elements_eq _ _ Hs).
  unfold qualifying. by rewrite (filter_none _ _ Hno).
Qed.

End WholeFunction.

(** ** The fields of a record *)

Section Fields.

(** [rstrip] and [lstrip] give the empty string exactly on strings made of
    white space only. *)
Lemma lstrip_nil (s : pystr) :
  lstrip s = [] ↔ Forall (λ c, is_space c = true) s.
Proof.
  induction s as [|c s IH]; simpl.
  - split; [constructor | done].
  - destruct (is_space c) eqn:Hc.
    + rewrite IH. split; [by constructor | by inversion 1].
    + split; [done | inversion 1; congruence].
Qed.






Lemma dict_get_app (d1 d2 : dict) key :
  dict_get (d1 ++ d2) key
  = match dict_get d1 key with Some v => Some v | None => dict_get d2 key end.
Proof.
  induction d1 as [|[k v] d1 IH]; simpl; [done|].
  by destruct (decide (k = key)).
Qed.

Lemma dict_get_keep key' value key :
  dict_get (keep key' value) key
  = if decide (key' = key)
    then match value with
         | Some v => if truthy v then Some v else None
         | None => None
         end
    else None.
Proof.
  unfold keep. destruct value as [v|]; [destruct (truthy v)|]; simpl;
    by destruct (decide (key' = key)).
Qed.

Lemma dict_get_elem_of (d : dict) key v :
  dict_get d key = Some v → (key, v) ∈ d.
Proof.
  induction d as [|[k w] d IH]; simpl; [done|].
  destruct (decide (k = key)) as [->|].
  - intros [= ->]. left.
  - intros H. right. by apply IH.
Qed.

Lemma dict_get_keys (d : dict) key :
  key ∈ keys d ↔ is_Some (dict_get d key).
Proof.
  unfold keys. induction d as [|[k w] d IH]; csimpl.
  - split; [by intros ?%elem_of_nil | by intros [? ?]].
  - destruct (decide (k = key)) as [->|Hne].
    + split; [by eexists | left].
    + rewrite <-IH. split; [|by right].
      intros [?|?]%elem_of_cons; [congruence | done].
Qed.

(** The optional fields of the record: the field is there, with the source
    value, exactly when the source value is truthy. *)
Lemma record_of_field soup element test_id (f : field) :
  dict_get (record_of soup element test_id) (field_key f)
  = match source_value soup element f with
    | Some v => if truthy v then Some v else None
    | None => None
    end.
Proof.
  unfold record_of. cbn [dict_get].
  rewrite !dict_get_app, !dict_get_keep.
  destruct f; cbn [field_key];
    repeat first [ rewrite decide_True by done
                 | rewrite decide_False by (by vm_compute) ];
    repeat match goal with
      | |- context [match ?o with Some _ => _ | None => _ end] =>
          destruct o as [?|]
      | |- context [if truthy ?v then _ else _] => destruct (truthy v)
      end; reflexivity.
Qed.

Lemma record_of_tag soup element test_id :
  dict_get (record_of soup element test_id) (py "tag")
  = if truthy (name element) then Some (name element) else None.
Proof.
  unfold record_of. cbn [dict_get].
  rewrite !dict_get_app, !dict_get_keep.
  repeat first [ rewrite decide_True by done
               | rewrite decide_False by (by vm_compute) ].
  by destruct (truthy (name element)).
Qed.

(** The keys of a record, in order: the fixed order, less the fields that
    are not there. *)
Lemma keys_app (d1 d2 : dict) : keys (d1 ++ d2) = keys d1 ++ keys d2.
Proof. apply fmap_app. Qed.

Lemma keys_keep key value :
  keys (keep key value) = if truthy_opt value then [key] else [].
Proof. destruct value as [v|]; [|done]. simpl. by destruct (truthy v). Qed.

Lemma record_of_keys soup element test_id :
  let r := record_of soup element test_id in
  keys r = filter (λ k, k ∈ keys r) field_order.
Proof.
  unfold record_of. cbn zeta. change (keys (?x :: ?d)) with (x.1 :: keys d).
  rewrite !keys_app, !keys_keep.
  generalize (truthy_opt (source_value soup element FLabel)).
  generalize (truthy_opt (source_value soup element FPlaceholder)).
  generalize (truthy_opt (source_value soup element FAriaLabel)).
  generalize (truthy_opt (source_value soup element FText)).
  generalize (truthy_opt (source_value soup element FType)).
  generalize (truthy_opt (Some (name element))).
  intros [] [] [] [] [] []; vm_compute; reflexivity.
Qed.

End Fields.

(** ** Presence of the fields *)

Section Presence.

Lemma keep_values key value k v : (k, v) ∈ keep key value → v ≠ [].
Proof.
  unfold keep. destruct value as [w|]; [|by intros ?%elem_of_nil].
  destruct (truthy w) eqn:Hw; [|by intros ?%elem_of_nil].
  intros [= -> ->]%list_elem_of_singleton. by apply truthy_true.
Qed.

Lemma record_of_values soup element test_id k v :
  test_id ≠ [] → (k, v) ∈ record_of soup element test_id → v ≠ [].
Proof.
  intros Ht. unfold record_of. rewrite elem_of_cons, !elem_of_app.
  intros [[= -> ->]|H]; [done|].
  destruct H as [H|[H|[H|[H|[H|H]]]]]; eapply keep_values; eassumption.
Qed.

Lemma carries_test_id_of element :
  carries_e2e_test_id element →
  get element (py "data-test-id") = Some (test_id_of element)
  ∧ test_id_of element ≠ [].
Proof.
  intros (v & Hv & [k ->]). unfold test_id_of. rewrite Hv. done.
Qed.

Lemma collected_record soup r :
  r ∈ element_record soup <$> qualifying soup →
  ∃ element, element ∈ elements soup ∧ carries_e2e_test_id element
             ∧ r = element_record soup element.
Proof.
  intros (e & -> & He)%list_elem_of_fmap. exists e.
  unfold qualifying in He. apply list_elem_of_filter in He as [? ?]. done.
Qed.



End Presence.

(** ** The label *)

Section Label.

(** For a non-empty [id], the tag [find] returns is the first [<label>]
    whose [for] attribute is that [id]. *)
Lemma find_first_label_for soup id :
  id ≠ [] → find soup (py "label") (py "for") id = first_label_for soup id.
Proof.
  intros Hid. unfold find, first_label_for. f_equal.
  apply list_filter_iff. intros e. unfold matches.
  destruct (get e (py "for")) as [v|].
  - rewrite bool_decide_eq_true. naive_solver.
  - apply truthy_true in Hid. rewrite Hid. naive_solver.
Qed.

(** C3, amended.  For every qualifying element whose [id] attribute is not
    empty, the record has the [label] field with the stripped text of the
    first [<label>] of the document whose [for] attribute equals that [id];
    it has no [label] field when there is no such label or when the
    stripped text of that first one is empty. *)
Theorem label_resolution (soup element : PageElement) (id : pystr) :
  carries_e2e_test_id element →
  get element (py "id") = Some id →
  id ≠ [] →
  ∃ r, produced soup element r
       ∧ dict_get r (py "label") = expected_label soup id.
Proof.
  intros Hc Hid Hne. exists (element_record soup element).
  split; [by apply produced_element_record|].
  change (py "label") with (field_key FLabel).
  unfold element_record. rewrite record_of_field. cbn [source_value].
  rewrite Hid, find_first_label_for by done.
  apply truthy_true in Hne as ->.
  unfold expected_label. by destruct (first_label_for soup id).
Qed.

(** C9. For every qualifying element whose [id] attribute is the empty
    string, whatever the document holds, the script has no label text for
    it, the record has no [label] field, and the record is the one any
    other document would give for this element. *)
Theorem empty_id_no_label (soup element : PageElement) :
  carries_e2e_test_id element →
  get element (py "id") = Some [] →
  ∃ r, produced soup element r
       ∧ source_value soup element FLabel = None
       ∧ dict_get r (py "label") = None
       ∧ (py "label" ∉ keys r)
       ∧ ∀ soup', produced soup' element r.
Proof.
  intros Hc Hid. exists (element_record soup element).
  assert (∀ s, source_value s element FLabel = None) as Hsrc.
  { intros s. cbn [source_value]. by rewrite Hid. }
  assert (dict_get (element_record soup element) (py "label") = None) as Hget.
  { change (py "label") with (field_key FLabel).
    unfold element_record. by rewrite record_of_field, Hsrc. }
  split_and!; [by apply produced_element_record|done|done|..].
  - rewrite dict_get_keys, Hget. by intros [? ?].
  - intros soup'.
    replace (element_record soup element) with (element_record soup' element).
    + by apply produced_element_record.
    + unfold element_record, record_of. rewrite !Hsrc. reflexivity.
Qed.

End Label.

(** C3 as stated fails on an element whose [id] is the empty string:
    in [<input data-test-id='e2e-name' id=''/><label for=''>Name</label>]
    the first label whose [for] equals the [id] has the text [Name], and
    the record of the [input] has no [label] field. *)
Lemma label_rule_fails_on_empty_id :
  input_empty_id ∈ elements doc_empty_id
  ∧ ¬ label_rule_for_any_id doc_empty_id input_empty_id.
Proof.
  split; [left|]. intros Hrule.
  destruct (Hrule ltac:(exists (py "e2e-name"); split; [reflexivity|by exists (py "name")])
              [] eq_refl) as (r & Hr & Hlabel).
  apply produced_inv in Hr as (t & _ & ->).
  change (py "label") with (field_key FLabel) in Hlabel.
  rewrite record_of_field in Hlabel.
  vm_compute in Hlabel. discriminate Hlabel.
Qed.

(** [label_resolution] on the e-mail field of the second scenario: the
    [input] has [id="email"] and the label [Email] follows it. *)
Lemma label_resolution_witness :
  ∃ r, produced doc_email input_email r
       ∧ dict_get r (py "label") = Some (py "Email").
Proof.
  destruct (label_resolution doc_email input_email (py "email")) as (r & Hr & Hl).
  - exists (py "e2e-email"). split; [reflexivity | by exists (py "email")].
  - reflexivity.
  - discriminate.
  - exists r. split; [exact Hr|]. rewrite Hl. reflexivity.
Defined.

(** [empty_id_no_label] on a document that does hold a label with an
    empty [for] attribute and the text [Name]. *)
Lemma empty_id_no_label_witness :
  ∃ r, produced doc_empty_id input_empty_id r
       ∧ dict_get r (py "label") = None
       ∧ expected_label doc_empty_id [] = Some (py "Name").
Proof.
  destruct (empty_id_no_label doc_empty_id input_empty_id)
    as (r & Hr & _ & Hl & _).
  - exists (py "e2e-name"). split; [reflexivity | by exists (py "name")].
  - reflexivity.
  - exists r. split; [exact Hr|]. split; [exact Hl | reflexivity].
Defined.


(** C7 as stated fails on an input the parser rejects: on [<![x]>] the
    parser raises [ParserRejectedMarkup] and so does the extractor. *)
Lemma extractor_raises_on_rejected_markup :
  extract_test_elements parse_rejecting html_marked_section
  = Raise ParserRejectedMarkup
  ∧ ¬ never_raises parse_rejecting.
Proof.
  split; [reflexivity|]. intros Hnever.
  destruct (Hnever html_marked_section) as [out Hout]. discriminate Hout.
Qed.

(** [no_fault_of_its_own] on the source of the first scenario, which the
    parser accepts, and on [<![x]>], which it rejects. *)
Lemma no_fault_of_its_own_witness :
  (∃ test_elements,
     collect doc_button = Ok test_elements
     ∧ extract_test_elements parse_rejecting html_button
       = Ok (dumps test_elements))
  ∧ extract_test_elements parse_rejecting html_marked_section
    = Raise ParserRejectedMarkup.
Proof.
  split.
  - destruct (no_fault_of_its_own parse_rejecting html_button) as [H _].
    apply (H doc_button). reflexivity.
  - destruct (no_fault_of_its_own parse_rejecting html_marked_section) as [_ H].
    apply (H ParserRejectedMarkup). reflexivity.
Defined.

(** [empty_collection] on a document whose only test identifier has
    another prefix, and on the empty document. *)
Lemma empty_collection_witness :
  extract_test_elements parse_samples html_none = Ok (py "[]")
  ∧ extract_test_elements parse_samples [] = Ok (py "[]").
Proof.
  split.
  - apply (empty_collection parse_samples html_none doc_none).
    + reflexivity.
    + intros e He. apply list_elem_of_filter in He as [_ He].
      vm_compute in He.
      repeat (apply elem_of_cons in He as [->|He];
              [intros (v & Hv & k & Hk); vm_compute in Hv; try discriminate Hv;
               injection Hv as <-; discriminate Hk|]).
      by apply elem_of_nil in He.
  - apply (empty_collection parse_samples [] (document [])).
    + reflexivity.
    + intros e He. by apply elem_of_nil in He.
Defined.

(** ** The command line *)

Section CommandLine.

Variable sys : os.
Variable BeautifulSoup : pystr → result PageElement.

(** C6, amended.  With no argument the script prints the usage message and
    exits with status 1; with a path that does not exist it prints the
    error message, which names the path, and exits with status 1; with a
    path that exists, whose file is read and whose content the extractor
    accepts, it prints the extractor's output and exits with status 0.
    When the path exists and the file cannot be read (a directory,
    content that is not UTF-8), or when the extractor raises, nothing is
    printed and the process ends on the exception, with status 1. *)
Theorem cli_behaviour (argv : list pystr) :
  ((length argv < 2)%nat →
     main sys BeautifulSoup argv = (print [] usage_message, Exit 1))
  ∧ (∀ file_path,
       argv !! 1%nat = Some file_path →
       path_exists sys file_path = false →
       main sys BeautifulSoup argv
       = (print [] (py "Error: File '" ++ file_path ++ py "' does not exist."),
          Exit 1))
  ∧ (∀ file_path html_content out,
       argv !! 1%nat = Some file_path →
       path_exists sys file_path = true →
       read_text sys file_path = Ok html_content →
       extract_test_elements BeautifulSoup html_content = Ok out →
       main sys BeautifulSoup argv = (print [] out, Exit 0))
  ∧ (∀ file_path e,
       argv !! 1%nat = Some file_path →
       path_exists sys file_path = true →
       read_text sys file_path = Raise e
       ∨ (∃ html_content, read_text sys file_path = Ok html_content
            ∧ extract_test_elements BeautifulSoup html_content = Raise e) →
       main sys BeautifulSoup argv = ([], Uncaught e)
       ∧ exit_status (Uncaught e) = 1%Z).
Proof.
  assert (∀ p, argv !! 1%nat = Some p → (length argv <? 2)%nat = false) as Hlen.
  { intros p Hp. apply Nat.ltb_ge. apply lookup_lt_Some in Hp. lia. }
  unfold main. split_and!.
  - intros Hlt. by apply Nat.ltb_lt in Hlt as ->.
  - intros p Hp Hex. rewrite (Hlen p Hp), Hp. cbn [from_option id].
    by rewrite Hex.
  - intros p html out Hp Hex Hread Hout.
    rewrite (Hlen p Hp), Hp. cbn [from_option id].
    by rewrite Hex, Hread, Hout.
  - intros p e Hp Hex Hfail. split; [|done].
    rewrite (Hlen p Hp), Hp. cbn [from_option id]. rewrite Hex.
    destruct Hfail as [Hread|(html & Hread & Hout)].
    + by rewrite Hread.
    + by rewrite Hread, Hout.
Qed.

End CommandLine.

(** C6 as stated fails on a path that exists and is a directory:
    [python extract_test_elements.py /tmp] prints nothing on standard
    output and ends on [IsADirectoryError], with status 1. *)
Lemma cli_fails_on_directory :
  ¬ cli_existing_path_rule sample_os parse_samples
      [py "extract_test_elements.py"; py "/tmp"].
Proof.
  intros Hrule. destruct (Hrule (py "/tmp") eq_refl eq_refl) as [out Hout].
  vm_compute in Hout. discriminate Hout.
Qed.

(** [cli_behaviour] on the four kinds of invocation: no argument, a path
    that does not exist, a readable file, a directory. *)
Lemma cli_behaviour_witness :
  main sample_os parse_samples [py "extract_test_elements.py"]
  = (print [] usage_message, Exit 1)
  ∧ main sample_os parse_samples [py "extract_test_elements.py"; py "/nowhere"]
    = (print [] (py "Error: File '/nowhere' does not exist."), Exit 1)
  ∧ (∃ out,
       extract_test_elements parse_samples html_button = Ok out
       ∧ main sample_os parse_samples
           [py "extract_test_elements.py"; py "/srv/page.html"]
         = (print [] out, Exit 0))
  ∧ main sample_os parse_samples [py "extract_test_elements.py"; py "/tmp"]
    = ([], Uncaught IsADirectoryError).
Proof.
  split_and!.
  - destruct (cli_behaviour sample_os parse_samples
                [py "extract_test_elements.py"]) as (H & _).
    apply H. simpl. lia.
  - destruct (cli_behaviour sample_os parse_samples
                [py "extract_test_elements.py"; py "/nowhere"]) as (_ & H & _).
    apply (H (py "/nowhere")); reflexivity.
  - destruct (cli_behaviour sample_os parse_samples
                [py "extract_test_elements.py"; py "/srv/page.html"])
      as (_ & _ & H & _).
    eexists. split; [reflexivity|].
    apply (H (py "/srv/page.html") html_button); reflexivity.
  - destruct (cli_behaviour sample_os parse_samples
                [py "extract_test_elements.py"; py "/tmp"]) as (_ & _ & _ & H).
    apply (H (py "/tmp")); [reflexivity | reflexivity | left; reflexivity].
Defined.

(** ** More on the collection *)

Section MoreOnCollection.

Lemma qualifying_carries soup e :
  e ∈ qualifying soup → carries_e2e_test_id e.
Proof.
  unfold qualifying. by intros [? _]%list_elem_of_filter.
Qed.

(** X1. The records of the output line up with the qualifying elements
    in document order, and each one identifies its element: its [test_id]
    is the element's [data-test-id] value, which begins with [e2e-], and
    its [tag] is the element's name (no [tag] entry for an empty name). *)
Theorem identifying_fields (soup : PageElement) :
  ∃ out,
    collect soup = Ok out
    ∧ Forall2 (λ element r,
        ∃ test_id,
          get element (py "data-test-id") = Some test_id
          ∧ py "e2e-" `prefix_of` test_id
          ∧ dict_get r (py "test_id") = Some test_id
          ∧ dict_get r (py "tag")
            = if truthy (name element) then Some (name element) else None)
      (qualifying soup) out.
Proof.
  exists (element_record soup <$> qualifying soup).
  split; [apply collect_eq|].
  apply Forall2_fmap_r, Forall_Forall2_diag, Forall_forall.
  intros e (v & Hv & Hp)%qualifying_carries. exists v.
  unfold element_record, test_id_of. rewrite Hv. cbn [from_option id].
  split_and!; [done|done|apply record_of_test_id|apply record_of_tag].
Qed.

Lemma field_order_NoDup : NoDup field_order.
Proof. apply (bool_decide_unpack _). by vm_compute. Qed.

(** X2. Every record of the output is a well-formed JSON object of at
    most seven members: no key occurs twice, every key is one of the
    seven field names, and the first key is [test_id]. *)
Theorem record_keys_closed (soup : PageElement) :
  ∃ out,
    collect soup = Ok out
    ∧ ∀ r, r ∈ out →
        NoDup (keys r)
        ∧ keys r ⊆ field_order
        ∧ head (keys r) = Some (py "test_id")
        ∧ (1 ≤ length r ≤ 7)%nat.
Proof.
  exists (element_record soup <$> qualifying soup).
  split; [apply collect_eq|]. intros r (e & _ & _ & ->)%collected_record.
  pose proof (record_of_keys soup e (test_id_of e)) as Hk. cbn zeta in Hk.
  fold (element_record soup e) in Hk. split_and!.
  - rewrite Hk. apply NoDup_filter, field_order_NoDup.
  - rewrite Hk. apply list_subseteq_filter.
  - done.
  - unfold element_record, record_of. simpl. lia.
  - replace (length (element_record soup e))
      with (length (keys (element_record soup e))) by apply length_fmap.
    rewrite Hk.
    etransitivity; [apply length_filter|]. by vm_compute.
Qed.

(** X3. The loop only appends: started from any list of records, it
    returns that list, untouched, followed by exactly the records it
    collects when started from the empty list. *)
Theorem loop_only_appends (soup : PageElement) (xs : list PageElement)
    (test_elements : list dict) :
  ∃ out,
    for_each (visit soup) xs [] = Ok out
    ∧ for_each (visit soup) xs test_elements = Ok (test_elements ++ out).
Proof.
  exists (concat (contribution soup <$> xs)).
  by rewrite !for_each_visit.
Qed.

(** X4. Two qualifying elements with the same [id] value get the same
    [label] entry (or both none), wherever they stand in the document:
    the label is looked up from the root, not from the element. *)
Theorem label_shared_by_id (soup e1 e2 : PageElement) (id : pystr) :
  carries_e2e_test_id e1 →
  carries_e2e_test_id e2 →
  get e1 (py "id") = Some id →
  get e2 (py "id") = Some id →
  ∃ r1 r2, produced soup e1 r1 ∧ produced soup e2 r2
           ∧ dict_get r1 (py "label") = dict_get r2 (py "label").
Proof.
  intros Hc1 Hc2 Hid1 Hid2.
  exists (element_record soup e1), (element_record soup e2).
  split; [by apply produced_element_record|].
  split; [by apply produced_element_record|].
  change (py "label") with (field_key FLabel). unfold element_record.
  rewrite !record_of_field. cbn [source_value]. by rewrite Hid1, Hid2.
Qed.

End MoreOnCollection.

(** [label_shared_by_id] on two fields with [id='name'], one before and
    one after the label. *)
Lemma label_shared_by_id_witness :
  ∃ r1 r2, produced doc_shared_id input_first r1
           ∧ produced doc_shared_id input_second r2
           ∧ dict_get r1 (py "label") = dict_get r2 (py "label").
Proof.
  apply (label_shared_by_id doc_shared_id input_first input_second (py "name")).
  - exists (py "e2e-first"). split; [reflexivity | by exists (py "first")].
  - exists (py "e2e-second"). split; [reflexivity | by exists (py "second")].
  - reflexivity.
  - reflexivity.
Defined.

(** ** More on the whole function *)

Section MoreOnWholeFunction.

Variable BeautifulSoup : pystr → result PageElement.

(** X5. The extractor raises exactly when the parser does, and then the
    same exception: it adds no fault of its own and hides none. *)
Theorem faults_come_from_parser (html_content : pystr) (e : exn) :
  extract_test_elements BeautifulSoup html_content = Raise e
  ↔ BeautifulSoup html_content = Raise e.
Proof.
  unfold extract_test_elements.
  destruct (BeautifulSoup html_content) as [soup|e'] eqn:Hs;
    cbn [mbind result_bind].
  - rewrite collect_eq. cbn [mbind result_bind]. split; intros; discriminate.
  - split; intros [= ->]; reflexivity.
Qed.

Lemma dumps_nil_inv (test_elements : list dict) :
  dumps test_elements = py "[]" → test_elements = [].
Proof. destruct test_elements as [|r l]; [done|]. by intros [=]. Qed.

(** X6. The output is the string ["[]"] exactly when no element of the
    parsed document qualifies. *)
Theorem empty_output_iff (html_content : pystr) (soup : PageElement) :
  BeautifulSoup html_content = Ok soup →
  extract_test_elements BeautifulSoup html_content = Ok (py "[]")
  ↔ ∀ e, e ∈ elements soup → ¬ carries_e2e_test_id e.
Proof.
  intros Hs. rewrite (extract_test_elements_eq _ _ _ Hs). split.
  - intros [= Hd]. apply dumps_nil_inv, fmap_nil_inv in Hd.
    intros e He Hc.
    assert (e ∈ qualifying soup) as Hq
      by (unfold qualifying; by apply list_elem_of_filter).
    rewrite Hd in Hq. by apply elem_of_nil in Hq.
  - intros Hno. unfold qualifying. by rewrite (filter_none _ _ Hno).
Qed.

End MoreOnWholeFunction.

(** [empty_output_iff] on the first scenario: the output is not ["[]"],
    and the button qualifies. *)
Lemma empty_output_iff_witness :
  extract_test_elements parse_samples html_button = Ok (py "[]")
  ↔ ∀ e, e ∈ elements doc_button → ¬ carries_e2e_test_id e.
Proof. apply (empty_output_iff parse_samples html_button doc_button). reflexivity. Defined.

(** ** The text values *)

Section TextValues.

Lemma lstrip_head (s : pystr) c : head (lstrip s) = Some c → is_space c = false.
Proof.
  induction s as [|d s IH]; simpl; [done|].
  destruct (is_space d) eqn:Hd; [done|]. by intros [= <-].
Qed.

Lemma rstrip_head (s : pystr) c : head (rstrip s) = Some c → head s = Some c.
Proof.
  destruct s as [|d s]; simpl; [done|].
  destruct (rstrip s); [by destruct (is_space d)|done].
Qed.

Lemma rstrip_last (s : pystr) c : last (rstrip s) = Some c → is_space c = false.
Proof.
  induction s as [|d s IH]; simpl; [done|].
  destruct (rstrip s) as [|x r].
  - destruct (is_space d) eqn:Hd; [done|]. by intros [= <-].
  - rewrite last_cons_cons. done.
Qed.

Lemma strip_trimmed (s : pystr) : trimmed (strip s).
Proof.
  intros c [Hh|Hl].
  - by apply rstrip_head, lstrip_head in Hh.
  - by apply rstrip_last in Hl.
Qed.

(** Joining non-empty trimmed strings gives a trimmed string. *)
Lemma concat_trimmed (ss : list pystr) :
  Forall (λ s, s ≠ [] ∧ trimmed s) ss → trimmed (concat ss).
Proof.
  induction 1 as [|s ss [Hne Hs] _ IH]; [by intros c [?|?]|].
  intros c. simpl. rewrite head_app, last_app.
  destruct s as [|d s]; [done|]. cbn [head].
  destruct (last (concat ss)) as [x|] eqn:Hlast.
  - intros [[= <-]|[= <-]]; [apply Hs; by left | apply IH; by right].
  - intros [[= <-]|Hl]; apply Hs; [by left | by right].
Qed.

Lemma get_text_strip_trimmed (e : PageElement) : trimmed (get_text_strip e).
Proof.
  apply concat_trimmed, Forall_forall.
  intros s [Ht (t & -> & _)%list_elem_of_fmap]%list_elem_of_filter.
  split; [by apply truthy_true | apply strip_trimmed].
Qed.

(** X7. In every record of the output, the [text] and [label] values
    are not empty and neither start nor end with a white-space character
    (white space inside, between words, is kept as the nodes have it). *)
Theorem text_values_trimmed (soup : PageElement) :
  ∃ out,
    collect soup = Ok out
    ∧ ∀ r v, r ∈ out →
        dict_get r (py "text") = Some v ∨ dict_get r (py "label") = Some v →
        v ≠ [] ∧ trimmed v.
Proof.
  exists (element_record soup <$> qualifying soup).
  split; [apply collect_eq|].
  intros r v (e & _ & Hc & ->)%collected_record Hv.
  assert (v ≠ []) as Hne.
  { destruct Hv as [Hv|Hv]; apply dict_get_elem_of in Hv;
      eapply record_of_values; try exact Hv; by apply carries_test_id_of. }
  split; [done|]. unfold element_record in Hv.
  change (py "text") with (field_key FText) in Hv.
  change (py "label") with (field_key FLabel) in Hv.
  rewrite !record_of_field in Hv. cbn [source_value] in Hv.
  destruct Hv as [Hv|Hv].
  - destruct (truthy (get_text_strip e)); [|done].
    injection Hv as <-. apply get_text_strip_trimmed.
  - destruct (get e (py "id")) as [id|]; [|done].
    destruct (truthy id); [|done].
    destruct (find soup (py "label") (py "for") id) as [l|]; [|done].
    cbn [fmap option_fmap option_map] in Hv.
    destruct (truthy (get_text_strip l)); [|done].
    injection Hv as <-. apply get_text_strip_trimmed.
Qed.

End TextValues.

(** ** The serialized text *)

Section SerializedText.

Lemma hex_digit_printable (n : N) :
  32 ≤ hex_digit (N.land n 15) ∧ hex_digit (N.land n 15) ≤ 126.
Proof.
  change 15 with (N.ones 4). rewrite N.land_ones.
  pose proof (N.mod_upper_bound n (2 ^ 4) ltac:(done)) as Hlt.
  change (2 ^ 4) with 16 in *. unfold hex_digit.
  generalize dependent (n mod 16). intros m Hlt.
  destruct (N.ltb_spec m 10); lia.
Qed.

Lemma hex4_printable (n : N) : Forall (λ c, 32 ≤ c ∧ c ≤ 126) (hex4 n).
Proof. unfold hex4. repeat constructor; apply hex_digit_printable. Qed.

Lemma escape_char_printable (c : N) :
  Forall (λ c, 32 ≤ c ∧ c ≤ 126) (escape_char c).
Proof.
  unfold escape_char.
  repeat match goal with
    | |- context [if ?b =? ?n then _ else _] =>
        destruct (N.eqb_spec b n); [repeat constructor; lia|]
    end.
  destruct (_ && _) eqn:Hp.
  - apply andb_true_iff in Hp as [?%N.leb_le ?%N.leb_le]. by repeat constructor.
  - destruct (c <? 65536);
      rewrite ?Forall_app; repeat split;
      try apply hex4_printable; repeat constructor; lia.
Qed.

Lemma encode_str_printable (s : pystr) :
  Forall (λ c, 32 ≤ c ∧ c ≤ 126) (encode_str s).
Proof.
  unfold encode_str. rewrite !Forall_app. split_and!.
  - repeat constructor; lia.
  - apply Forall_concat, Forall_fmap, Forall_forall. intros c _.
    apply escape_char_printable.
  - repeat constructor; lia.
Qed.

Lemma join_Forall (P : N → Prop) (sep : pystr) (parts : list pystr) :
  Forall P sep → Forall (Forall P) parts → Forall P (join sep parts).
Proof.
  intros Hsep. induction 1 as [|p parts Hp Hparts IH]; [constructor|].
  simpl. destruct parts as [|q parts]; [done|].
  rewrite !Forall_app. done.
Qed.

Lemma newline_indent_ascii (level : nat) :
  Forall ascii_output_char (newline_indent level).
Proof.
  unfold newline_indent. constructor; [by left|].
  apply Forall_replicate. right. lia.
Qed.

Lemma printable_ascii (s : pystr) :
  Forall (λ c, 32 ≤ c ∧ c ≤ 126) s → Forall ascii_output_char s.
Proof. intros H. eapply Forall_impl; [exact H|]. intros c ?. by right. Qed.

Lemma printable_check (s : pystr) :
  forallb (λ c, (32 <=? c) && (c <=? 126)) s = true →
  Forall ascii_output_char s.
Proof.
  intros H. apply printable_ascii, Forall_forall. intros c Hc.
  rewrite forallb_forall in H. apply list_elem_of_In, H in Hc.
  apply andb_true_iff in Hc as [?%N.leb_le ?%N.leb_le]. done.
Qed.

Lemma separator_ascii (level : nat) :
  Forall ascii_output_char ([44] ++ newline_indent level).
Proof.
  apply Forall_app. split; [by apply printable_check|].
  apply newline_indent_ascii.
Qed.

Lemma encode_item_ascii (kv : pystr * pystr) :
  Forall ascii_output_char (encode_item kv).
Proof.
  unfold encode_item. rewrite !Forall_app. split_and!.
  - apply printable_ascii, encode_str_printable.
  - by apply printable_check.
  - apply printable_ascii, encode_str_printable.
Qed.

Lemma encode_dict_ascii (level : nat) (d : dict) :
  Forall ascii_output_char (encode_dict level d).
Proof.
  unfold encode_dict. destruct d as [|kv d]; [by apply printable_check|].
  rewrite !Forall_app. split_and!.
  - by apply printable_check.
  - apply newline_indent_ascii.
  - apply join_Forall; [apply separator_ascii|].
    apply Forall_fmap, Forall_forall. intros x _. apply encode_item_ascii.
  - apply newline_indent_ascii.
  - by apply printable_check.
Qed.

Lemma dumps_ascii (test_elements : list dict) :
  Forall ascii_output_char (dumps test_elements).
Proof.
  unfold dumps, encode_list.
  destruct test_elements as [|r l]; [by apply printable_check|].
  rewrite !Forall_app. split_and!.
  - by apply printable_check.
  - apply newline_indent_ascii.
  - apply join_Forall; [apply separator_ascii|].
    apply Forall_fmap, Forall_forall. intros d _. apply encode_dict_ascii.
  - apply newline_indent_ascii.
  - by apply printable_check.
Qed.

(** X8. Whatever characters the document holds, every character of the
    string the extractor returns is a printable ASCII character (from the
    space to the tilde) or a newline: the rest is escaped. *)
Theorem output_is_ascii (BeautifulSoup : pystr → result PageElement)
    (html_content out : pystr) :
  extract_test_elements BeautifulSoup html_content = Ok out →
  Forall ascii_output_char out.
Proof.
  unfold extract_test_elements.
  destruct (BeautifulSoup html_content) as [soup|]; [|done].
  cbn [mbind result_bind]. rewrite collect_eq. cbn [mbind result_bind].
  intros [= <-]. apply dumps_ascii.
Qed.

End SerializedText.

(** [output_is_ascii] on the first scenario. *)
Lemma output_is_ascii_witness :
  ∃ out, extract_test_elements parse_samples html_button = Ok out
         ∧ Forall ascii_output_char out.
Proof.
  eexists. split; [reflexivity|].
  apply (output_is_ascii parse_samples html_button). reflexivity.
Defined.

(** ** The shape of the document *)

Section DocumentShape.

Lemma descendants_app n a cs1 cs2 :
  descendants (Tag n a (cs1 ++ cs2))
  = descendants (Tag n a cs1) ++ descendants (Tag n a cs2).
Proof. by rewrite !descendants_Tag, bind_app. Qed.

Lemma descendants_cons n a c cs :
  descendants (Tag n a (c :: cs))
  = c :: descendants c ++ descendants (Tag n a cs).
Proof. reflexivity. Qed.

Lemma descendants_name n a n' a' cs :
  descendants (Tag n a cs) = descendants (Tag n' a' cs).
Proof. reflexivity. Qed.

(** The record of an element depends on the document through the label
    lookup only. *)
Lemma record_of_ext soup1 soup2 element test_id :
  (∀ id, find soup1 (py "label") (py "for") id
         = find soup2 (py "label") (py "for") id) →
  record_of soup1 element test_id = record_of soup2 element test_id.
Proof.
  intros Hfind. unfold record_of. do 6 f_equal.
  cbn [source_value]. destruct (get element (py "id")) as [id|]; [|done].
  by rewrite Hfind.
Qed.

Lemma collect_ext soup1 soup2 :
  qualifying soup1 = qualifying soup2 →
  (∀ id, find soup1 (py "label") (py "for") id
         = find soup2 (py "label") (py "for") id) →
  collect soup1 = collect soup2.
Proof.
  intros Hq Hfind. rewrite !collect_eq, Hq. f_equal.
  apply list_fmap_ext. intros i e _. by apply record_of_ext.
Qed.

(** One node of the document that is not a qualifying element and not a
    [<label>] may be taken out of the list of descendants. *)
Lemma skip_descendant soup1 soup2 l1 x l2 :
  descendants soup1 = l1 ++ x :: l2 →
  descendants soup2 = l1 ++ l2 →
  ¬ (is_tag x = true ∧ carries_e2e_test_id x) →
  ¬ (is_tag x = true ∧ name x = py "label") →
  collect soup1 = collect soup2.
Proof.
  intros H1 H2 Hq Hl. apply collect_ext.
  - unfold qualifying, elements. rewrite H1, H2, !filter_app, !filter_cons.
    destruct (decide (is_tag x = true)); [|done].
    rewrite filter_cons_False; [done | tauto].
  - intros id. unfold find. rewrite H1, H2, !filter_app.
    rewrite (filter_cons_False _ x); [done | tauto].
Qed.

(** X9. A string node at the top level of the document (text, white
    space between elements, a comment, a doctype) does not change the
    result. *)
Theorem top_level_string_ignored n a cs1 cls s cs2 :
  collect (Tag n a (cs1 ++ NavigableString cls s :: cs2))
  = collect (Tag n a (cs1 ++ cs2)).
Proof.
  eapply skip_descendant.
  - rewrite descendants_app, descendants_cons. reflexivity.
  - apply descendants_app.
  - by intros [[=] _].
  - by intros [[=] _].
Qed.

(** X10. A top-level element that does not qualify and is not a
    [<label>] is transparent: replacing it by its contents does not change
    the result. *)
Theorem wrapper_transparent n a cs1 wn wa cs cs2 :
  ¬ carries_e2e_test_id (Tag wn wa cs) →
  wn ≠ py "label" →
  collect (Tag n a (cs1 ++ Tag wn wa cs :: cs2))
  = collect (Tag n a (cs1 ++ cs ++ cs2)).
Proof.
  intros Hq Hl. eapply skip_descendant.
  - rewrite descendants_app, descendants_cons. reflexivity.
  - rewrite !descendants_app, (descendants_name n a wn wa cs). reflexivity.
  - tauto.
  - by intros [_ ?].
Qed.

Lemma filter_keep_label key value :
  key ≠ py "label" →
  filter (λ kv : pystr * pystr, kv.1 ≠ py "label") (keep key value)
  = keep key value.
Proof.
  intros Hk. unfold keep. destruct value as [v|]; [|done].
  destruct (truthy v); [|done]. by rewrite filter_cons_True.
Qed.

Lemma without_label_record soup1 soup2 element test_id :
  without_label (record_of soup1 element test_id)
  = without_label (record_of soup2 element test_id).
Proof.
  unfold without_label, record_of.
  rewrite !filter_cons, !filter_app. do 6 f_equal.
  unfold keep. cbn [source_value].
  repeat case_match; try done; by rewrite !filter_cons_False by (by intros []).
Qed.

(** X11. Documents compose: the records of a document made of two
    parts, one after the other, are those of the first part followed by
    those of the second, up to the [label] entries (a label of one part
    may serve an element of the other). *)
Theorem collect_concatenation n a cs1 cs2 :
  ∃ out1 out2 out,
    collect (Tag n a cs1) = Ok out1
    ∧ collect (Tag n a cs2) = Ok out2
    ∧ collect (Tag n a (cs1 ++ cs2)) = Ok out
    ∧ length out = (length out1 + length out2)%nat
    ∧ without_label <$> out = without_label <$> (out1 ++ out2).
Proof.
  eexists _, _, _. rewrite !collect_eq. split_and!; try reflexivity.
  - unfold qualifying, elements.
    by rewrite descendants_app, !filter_app, !length_fmap, length_app.
  - unfold qualifying, elements.
    rewrite descendants_app, !filter_app, !fmap_app, <-!list_fmap_compose.
    f_equal; apply list_fmap_ext; intros i e _; apply without_label_record.
Qed.

End DocumentShape.

(** [wrapper_transparent] on the first scenario wrapped in a [<main>]
    element. *)
Lemma wrapper_transparent_witness :
  collect (document [elem "main" [] (contents doc_button)])
  = collect doc_button.
Proof.
  apply (wrapper_transparent (py "[document]") ∅ [] (py "main") ∅
           (contents doc_button) []).
  - intros (v & Hv & _). discriminate Hv.
  - discriminate.
Defined.

(** ** More on the command line *)

Section MoreOnCommandLine.

Variable sys : os.
Variable BeautifulSoup : pystr → result PageElement.

(** X12. Exit status 0 vouches for the output: the script ends with
    [Exit 0] only when an argument was given, the path exists, the file
    was read and the extractor returned, and standard output then holds
    exactly the extractor's string followed by one newline. *)
Theorem cli_success_means_output (argv : list pystr) (stdout : pystr) :
  main sys BeautifulSoup argv = (stdout, Exit 0) →
  ∃ file_path html_content out,
    argv !! 1%nat = Some file_path
    ∧ path_exists sys file_path = true
    ∧ read_text sys file_path = Ok html_content
    ∧ extract_test_elements BeautifulSoup html_content = Ok out
    ∧ stdout = out ++ [10].
Proof.
  unfold main. destruct (length argv <? 2)%nat eqn:Hlen; [by intros [=]|].
  apply Nat.ltb_ge in Hlen.
  destruct (argv !! 1%nat) as [p|] eqn:Hp.
  2:{ apply lookup_ge_None in Hp. lia. }
  cbn [from_option id].
  destruct (path_exists sys p) eqn:Hex; cbn [negb]; [|by intros [=]].
  destruct (read_text sys p) as [html|] eqn:Hread; [|by intros [=]].
  destruct (extract_test_elements BeautifulSoup html) as [out|] eqn:Hout;
    [|by intros [=]].
  intros [= <-]. by exists p, html, out.
Qed.

(** X13. From the command line down to the records: when the path
    exists, the file is read and the parser returns a tree, standard output
    holds the serialization of the records of the qualifying elements of
    that tree, in document order, and a final newline; the status is 0. *)
Theorem cli_prints_the_records (argv : list pystr)
    (file_path html_content : pystr) (soup : PageElement) :
  argv !! 1%nat = Some file_path →
  path_exists sys file_path = true →
  read_text sys file_path = Ok html_content →
  BeautifulSoup html_content = Ok soup →
  ∃ test_elements,
    Forall2 (produced soup) (qualifying soup) test_elements
    ∧ main sys BeautifulSoup argv = (dumps test_elements ++ [10], Exit 0).
Proof.
  intros Hp Hex Hread Hsoup.
  exists (element_record soup <$> qualifying soup).
  split; [apply qualifying_produced|].
  unfold main.
  assert ((length argv <? 2)%nat = false) as ->.
  { apply Nat.ltb_ge. apply lookup_lt_Some in Hp. lia. }
  rewrite Hp. cbn [from_option id]. rewrite Hex, Hread. cbn [negb].
  by rewrite (extract_test_elements_eq _ _ _ Hsoup).
Qed.

End MoreOnCommandLine.

(** [cli_success_means_output] on the readable sample file. *)
Lemma cli_success_means_output_witness :
  ∃ file_path html_content out,
    [py "extract_test_elements.py"; py "/srv/page.html"] !! 1%nat
      = Some file_path
    ∧ path_exists sample_os file_path = true
    ∧ read_text sample_os file_path = Ok html_content
    ∧ extract_test_elements parse_samples html_content = Ok out
    ∧ (main sample_os parse_samples
         [py "extract_test_elements.py"; py "/srv/page.html"]).1
      = out ++ [10].
Proof.
  apply (cli_success_means_output sample_os parse_samples
           [py "extract_test_elements.py"; py "/srv/page.html"]).
  reflexivity.
Defined.

(** [cli_prints_the_records] on the readable sample file. *)
Lemma cli_prints_the_records_witness :
  ∃ test_elements,
    Forall2 (produced doc_button) (qualifying doc_button) test_elements
    ∧ main sample_os parse_samples
        [py "extract_test_elements.py"; py "/srv/page.html"]
      = (dumps test_elements ++ [10], Exit 0).
Proof.
  apply (cli_prints_the_records sample_os parse_samples
           [py "extract_test_elements.py"; py "/srv/page.html"]
           (py "/srv/page.html") html_button doc_button); reflexivity.
Defined.

(** ** How the text of an element is put together *)

Section TextOfAnElement.

Lemma all_strings_Tag n a cs :
  all_strings (Tag n a cs)
  = string_of
      <$> filter (λ d, is_string_of (interesting_string_types n) d = true)
                 (descendants (Tag n a cs)).
Proof. reflexivity. Qed.

(** X14. The text of an element ignores the elements inside it: it is
    the same when a child element is replaced by its own contents.  The
    strings on either side of a tag are joined with nothing between
    them. *)
Theorem text_ignores_markup n a cs1 wn wa cs cs2 :
  get_text_strip (Tag n a (cs1 ++ Tag wn wa cs :: cs2))
  = get_text_strip (Tag n a (cs1 ++ cs ++ cs2)).
Proof.
  unfold get_text_strip, all_strings_strip. rewrite !all_strings_Tag.
  rewrite !descendants_app, descendants_cons, (descendants_name wn wa n a cs).
  rewrite !filter_app, filter_cons_False by done.
  by rewrite !filter_app.
Qed.

Lemma comment_never_kept n cls :
  cls ∈ [ClsComment; ClsDeclaration; ClsDoctype; ClsProcessingInstruction] →
  cls ∉ interesting_string_types n.
Proof.
  intros Hcls. unfold interesting_string_types.
  repeat case_decide;
    repeat (apply elem_of_cons in Hcls as [->|Hcls];
            [by apply (bool_decide_unpack _)|]);
    by apply elem_of_nil in Hcls.
Qed.

(** X15. A string node adds nothing to the text of the element above
    it when it is made of white space only, or when it is a comment, a
    declaration, a doctype or a processing instruction. *)
Theorem text_skips_blank_and_comment n a cs1 cls s cs2 :
  strip s = []
  ∨ cls ∈ [ClsComment; ClsDeclaration; ClsDoctype; ClsProcessingInstruction] →
  get_text_strip (Tag n a (cs1 ++ NavigableString cls s :: cs2))
  = get_text_strip (Tag n a (cs1 ++ cs2)).
Proof.
  intros Hskip.
  unfold get_text_strip, all_strings_strip. rewrite !all_strings_Tag.
  rewrite !descendants_app, descendants_cons, !filter_app. cbn [descendants app].
  rewrite filter_cons.
  destruct (decide (is_string_of (interesting_string_types n)
                      (NavigableString cls s) = true)) as [Hin|Hin]; [|done].
  destruct Hskip as [Hs|Hcls].
  - rewrite !fmap_app, !fmap_cons, !filter_app. cbn [string_of].
    rewrite Hs, filter_cons_False by done. done.
  - cbn [is_string_of] in Hin. apply bool_decide_eq_true in Hin.
    by apply (comment_never_kept n) in Hcls.
Qed.

End TextOfAnElement.

(** [text_skips_blank_and_comment] on a comment between two words of a
    paragraph. *)
Lemma text_skips_blank_and_comment_witness :
  get_text_strip (elem "p" [] [text "a"; NavigableString ClsComment (py "x");
                               text "b"])
  = get_text_strip (elem "p" [] [text "a"; text "b"]).
Proof.
  apply (text_skips_blank_and_comment (py "p") ∅ [text "a"] ClsComment
           (py "x") [text "b"]).
  right. left.
Defined.
